(** * escapeSearchQuery: a shallow embedding and its properties

    Source: [src/sentry/static/sentry/app/utils/escapeSearchQuery.jsx]

<<
    export function escapeSearchQuery(value) {
      // Cast numbers to string
      if (typeof value === 'number') {
        return `${value}`;
      }

      return typeof value === 'string' ? value.replace(/Q/g, 'Q') : '';
    }
>>

    where Q stands for the one character U+0022 QUOTATION MARK, both in the
    regular expression and in the replacement string.

    The function takes an arbitrary JavaScript value.  It inspects it with
    [typeof], converts it with a template literal, or calls its [replace]
    method.  The last two operations can throw or run user code on the wrong
    kind of value, so the embedding keeps both effects: a computation takes
    the heap and gives back a completion (normal or abrupt) and the heap. *)

From Stdlib Require Import List NArith ZArith String Ascii Bool Lia.
From Stdlib Require Import DecimalString SpecFloat.
Import ListNotations.

(** ** Strings

    A JavaScript string is a finite sequence of 16-bit code units.  Nothing
    below depends on the 16-bit bound, so a code unit is an [N]. *)

Definition codeunit := N.
Definition jsstring := list codeunit.

(** Source-text literals: each character of the literal is one code unit. *)
Definition lit (s : string) : jsstring :=
  map N_of_ascii (list_ascii_of_string s).

(** U+0022 QUOTATION MARK and U+005C REVERSE SOLIDUS. *)
Definition DQUOTE : codeunit := 34%N.
Definition BACKSLASH : codeunit := 92%N.

(** The one-character source literal that holds U+0022. *)
Definition quote_char : string := String (ascii_of_N 34) EmptyString.

(** [a === b] when both operands are strings: same length and same code
    units at every index. *)
Fixpoint strict_equals (a b : jsstring) : bool :=
  match a, b with
  | [], [] => true
  | x :: a', y :: b' => N.eqb x y && strict_equals a' b'
  | _, _ => false
  end.

Notation "a === b" := (strict_equals a b) (at level 70, no associativity).

(** [String.prototype.replace] called with a global regular expression that
    matches exactly one code unit [c] (here U+0022) and a replacement string
    [r] that holds no [$] pattern: the string is scanned from left to right,
    every match is replaced by [r], every other code unit is copied. *)
Fixpoint replace_global (c : codeunit) (r : jsstring) (s : jsstring)
  : jsstring :=
  match s with
  | [] => []
  | u :: s' =>
      if N.eqb u c then r ++ replace_global c r s'
      else u :: replace_global c r s'
  end.

(** Number of occurrences of the double quote in a string. *)
Definition count_quotes (s : jsstring) : nat := count_occ N.eq_dec s DQUOTE.

(** A string that holds no double quote. *)
Definition quote_free (s : jsstring) : Prop :=
  Forall (fun c => c <> DQUOTE) s.

(** Decimal digits of an integer, with a leading minus sign when negative. *)
Definition decimal_of_Z (z : Z) : jsstring :=
  lit (NilZero.string_of_int (Z.to_int z)).

(** ** Values and completions *)

Section Values.

Variables number object : Type.

(** The language types that [typeof] tells apart.  [number] is the type of
    Number values (IEEE-754 doubles) and [object] the type of object
    references (plain objects, arrays, functions, wrappers). *)
Inductive JSValue : Type :=
| JSUndefined
| JSNull
| JSBoolean (b : bool)
| JSNumber (n : number)
| JSString (s : jsstring)
| JSSymbol (description : jsstring)
| JSBigInt (z : Z)
| JSObject (o : object).

End Values.

Arguments JSUndefined {number object}.
Arguments JSNull {number object}.
Arguments JSBoolean {number object} b.
Arguments JSNumber {number object} n.
Arguments JSString {number object} s.
Arguments JSSymbol {number object} description.
Arguments JSBigInt {number object} z.
Arguments JSObject {number object} o.

(** What an abrupt completion carries. *)
Inductive exn : Type :=
| TypeError
| Thrown (by_user_code : N).

Inductive completion (A : Type) : Type :=
| Normal (a : A)
| Throw (e : exn).

Arguments Normal {A} a.
Arguments Throw {A} e.

(** ** The runtime

    What the function needs from the engine and cannot see in the source:
    the Number type with its string conversion ([Number::toString], radix
    10), and for objects whether they are callable, what [ToString] does on
    them and what calling their [replace] method does (both run user code,
    which can read and write the heap and throw). *)
Class Runtime : Type := {
  number : Type;
  object : Type;
  heap : Type;
  NumberToString : number -> jsstring;
  IsCallable : object -> bool;
  ObjectToString : object -> heap -> completion jsstring * heap;
  ObjectReplace :
    object -> codeunit -> jsstring -> heap ->
    completion (JSValue number object) * heap
}.

Section Embedding.

Context {R : Runtime}.

Definition jsvalue : Type := JSValue number object.

(** *** Computations: heap passing with abrupt completions *)

Definition M (A : Type) : Type := heap -> completion A * heap.

Definition ret {A : Type} (a : A) : M A := fun h => (Normal a, h).

Definition throw {A : Type} (e : exn) : M A := fun h => (Throw e, h).

Definition bind {A B : Type} (m : M A) (k : A -> M B) : M B :=
  fun h =>
    match m h with
    | (Normal a, h') => k a h'
    | (Throw e, h') => (Throw e, h')
    end.

(** *** The operations the function uses *)

(** The [typeof] operator. *)
Definition typeof (v : jsvalue) : jsstring :=
  match v with
  | JSUndefined => lit "undefined"
  | JSNull => lit "object"
  | JSBoolean _ => lit "boolean"
  | JSNumber _ => lit "number"
  | JSString _ => lit "string"
  | JSSymbol _ => lit "symbol"
  | JSBigInt _ => lit "bigint"
  | JSObject o => if IsCallable o then lit "function" else lit "object"
  end.

(** The abstract operation [ToString]. *)
Definition ToString (v : jsvalue) : M jsstring :=
  match v with
  | JSUndefined => ret (lit "undefined")
  | JSNull => ret (lit "null")
  | JSBoolean b => ret (if b then lit "true" else lit "false")
  | JSNumber n => ret (NumberToString n)
  | JSString s => ret s
  | JSSymbol _ => throw TypeError
  | JSBigInt z => ret (decimal_of_Z z)
  | JSObject o => ObjectToString o
  end.

(** The template literal [`${v}`]: an empty head, the substitution
    converted with [ToString], an empty tail. *)
Definition template (v : jsvalue) : M jsvalue :=
  bind (ToString v) (fun s => ret (JSString (lit EmptyString ++ s ++ lit EmptyString))).

(** The call [v.replace(/c/g, r)].  On a string it is
    [String.prototype.replace]; [undefined] and [null] have no properties;
    the other primitives have no [replace] method, so the call throws; an
    object answers with its own method. *)
Definition call_replace (v : jsvalue) (c : codeunit) (r : jsstring)
  : M jsvalue :=
  match v with
  | JSString s => ret (JSString (replace_global c r s))
  | JSObject o => ObjectReplace o c r
  | JSUndefined | JSNull => throw TypeError
  | JSBoolean _ | JSNumber _ | JSSymbol _ | JSBigInt _ => throw TypeError
  end.

(** *** The function *)

Definition escapeSearchQuery (value : jsvalue) : M jsvalue :=
  if typeof value === lit "number" then
    template value
  else
    if typeof value === lit "string"
    then call_replace value DQUOTE (lit quote_char)
    else ret (JSString (lit EmptyString)).

End Embedding.

(** ** What the specification asks of the string branch

    Every double quote becomes a backslash followed by a double quote; every
    other code unit is copied. *)
Definition escaped_by_spec (s : jsstring) : jsstring :=
  replace_global DQUOTE [BACKSLASH; DQUOTE] s.

(** ** Numbers

    A Number value is an IEEE-754 binary64 value: not-a-number, a signed
    infinity, a signed zero, or a finite value (-1)^s * m * 2^e whose
    mantissa and exponent are in the format (53 bits of precision,
    exponents below 1024). *)

Definition binary64 (x : spec_float) : bool := valid_binary 53 1024 x.

Record double : Type := {
  float_of : spec_float;
  float_valid : binary64 float_of = true
}.

(** The Number value of the decimal [s * 10^p], for a positive integer
    [s]: the nearest binary64 value, ties to the even mantissa. *)
Definition nearest_double (s p : Z) : spec_float :=
  if (0 <=? p)%Z then binary_normalize 53 1024 (s * 10 ^ p) 0 false
  else SFdiv 53 1024 (S754_finite false (Z.to_pos s) 0)
                     (S754_finite false (Z.to_pos (10 ^ (- p))) 0).

(** The Number value of an integer literal. *)
Definition integer_literal (z : Z) : spec_float :=
  binary_normalize 53 1024 z 0 false.

(** [y] is the positive finite value [mx * 2^ex]. *)
Definition is_double (mx : positive) (ex : Z) (y : spec_float) : bool :=
  match y with
  | S754_finite false my ey => Pos.eqb mx my && Z.eqb ex ey
  | _ => false
  end.

(** The value [mx * 2^ex] as a fraction of two positive integers. *)
Definition numerator (mx : positive) (ex : Z) : Z :=
  (Zpos mx * 2 ^ Z.max ex 0)%Z.
Definition denominator (ex : Z) : Z := (2 ^ Z.max (- ex) 0)%Z.

(** [num / den < 10^n]. *)
Definition below_power_of_ten (num den n : Z) : bool :=
  if (0 <=? n)%Z then (num <? den * 10 ^ n)%Z
  else (num * 10 ^ (- n) <? den)%Z.

(** The least [n] with [num / den < 10^n], looked for from [n] upwards.
    The positive binary64 values lie between 10^-324 and 10^309. *)
Fixpoint decimal_exponent_from (fuel : nat) (n num den : Z) : Z :=
  match fuel with
  | O => n
  | S fuel' =>
      if below_power_of_ten num den n then n
      else decimal_exponent_from fuel' (n + 1)%Z num den
  end.

Definition decimal_exponent (num den : Z) : Z :=
  decimal_exponent_from 640 (-324)%Z num den.

(** The integer part of [(num / den) / 10^p]. *)
Definition floor_scaled (num den p : Z) : Z :=
  if (0 <=? p)%Z then (num / (den * 10 ^ p))%Z
  else ((num * 10 ^ (- p)) / den)%Z.

(** Where [num / den] lies with respect to [(sf + 1/2) * 10^p]. *)
Definition compare_to_half (num den p sf : Z) : comparison :=
  if (0 <=? p)%Z then (2 * num ?= (2 * sf + 1) * 10 ^ p * den)%Z
  else (2 * num * 10 ^ (- p) ?= (2 * sf + 1) * den)%Z.

(** The two multiples of [10^p] around [num / den], the closer one first
    and the even one first when they are as close. *)
Definition candidates (num den p : Z) : Z * Z :=
  let sf := floor_scaled num den p in
  match compare_to_half num den p sf with
  | Lt => (sf, sf + 1)
  | Gt => (sf + 1, sf)
  | Eq => if Z.even sf then (sf, sf + 1) else (sf + 1, sf)
  end%Z.

(** A candidate that reached [10^k] is the one-digit-shorter [10^(k-1)]
    one decimal exponent higher. *)
Definition normalise (n k c : Z) : Z * Z * Z :=
  if (c =? 10 ^ k)%Z then (n + 1, k, c / 10)%Z else (n, k, c).

(** Step 5 of [Number::toString]: integers [n], [k], [s] with [k >= 1],
    [10^(k-1) <= s < 10^k], the Number value of [s * 10^(n-k)] being
    [mx * 2^ex], and [k] as small as possible; among several [s], the
    closest to the value.  [k] goes up from 1; seventeen digits tell any
    two binary64 values apart. *)
Fixpoint shortest_digits (fuel : nat) (k n0 : Z) (mx : positive) (ex : Z)
  : Z * Z * Z :=
  let p := (n0 - k)%Z in
  let (c1, c2) := candidates (numerator mx ex) (denominator ex) p in
  match fuel with
  | O => normalise n0 k c1
  | S fuel' =>
      if is_double mx ex (nearest_double c1 p) then normalise n0 k c1
      else if is_double mx ex (nearest_double c2 p) then normalise n0 k c2
      else shortest_digits fuel' (k + 1)%Z n0 mx ex
  end.

Definition zeros (n : Z) : jsstring := repeat 48%N (Z.to_nat n).

(** Steps 6 to 10 of [Number::toString] in radix 10: plain digits when
    the decimal exponent [n] is between -5 and 21, exponent notation
    otherwise. *)
Definition format_decimal (n k s : Z) : jsstring :=
  let digits := decimal_of_Z s in
  if ((-5 <=? n) && (n <=? 21))%Z then
    if (k <=? n)%Z then digits ++ zeros (n - k)
    else if (0 <? n)%Z then
      firstn (Z.to_nat n) digits ++ lit "." ++ skipn (Z.to_nat n) digits
    else lit "0." ++ zeros (- n) ++ digits
  else
    let e := (n - 1)%Z in
    let exponent :=
      lit "e" ++ (if (e <? 0)%Z then lit "-" else lit "+")
              ++ decimal_of_Z (Z.abs e) in
    if (k =? 1)%Z then digits ++ exponent
    else firstn 1 digits ++ lit "." ++ skipn 1 digits ++ exponent.

(** [Number::toString] on the positive finite value [mx * 2^ex]. *)
Definition positive_toString (mx : positive) (ex : Z) : jsstring :=
  let n0 := decimal_exponent (numerator mx ex) (denominator ex) in
  let '(n, k, s) := shortest_digits 16 1 n0 mx ex in
  format_decimal n k s.

(** [Number::toString(x, 10)], the string of a Number in radix 10. *)
Definition Number_toString (x : double) : jsstring :=
  match float_of x with
  | S754_nan => lit "NaN"
  | S754_zero _ => lit "0"
  | S754_infinity false => lit "Infinity"
  | S754_infinity true => lit "-" ++ lit "Infinity"
  | S754_finite false m e => positive_toString m e
  | S754_finite true m e => lit "-" ++ positive_toString m e
  end.

(** ** Runtimes with binary64 numbers

    The objects of an engine: what they are, the heap they live in and
    what they answer to the three operations of the runtime. *)
Record Objects : Type := {
  obj : Type;
  store : Type;
  callable : obj -> bool;
  to_string : obj -> store -> completion jsstring * store;
  replace_method :
    obj -> codeunit -> jsstring -> store ->
    completion (JSValue double obj) * store
}.

(** The runtime whose numbers are the binary64 values with
    [Number::toString], over any objects. *)
Definition ecma_runtime (O : Objects) : Runtime := {|
  number := double;
  object := obj O;
  heap := store O;
  NumberToString := Number_toString;
  IsCallable := callable O;
  ObjectToString := to_string O;
  ObjectReplace := replace_method O
|}.

(** One object, not callable, whose conversion and whose [replace] both
    throw; the heap counts the calls into user code. *)
Definition throwing_objects : Objects := {|
  obj := unit;
  store := nat;
  callable := fun _ => false;
  to_string := fun _ h => (Throw (Thrown 0), S h);
  replace_method := fun _ _ _ h => (Throw (Thrown 1), S h)
|}.

Definition small_runtime : Runtime := ecma_runtime throwing_objects.

(** Some Number values: the literals 1000, 1e21, 0.1, 1e-7 and 5e-324,
    2^69, the largest finite value, the zeros, the infinities and NaN. *)
Definition one_thousand : double :=
  {| float_of := integer_literal 1000; float_valid := eq_refl |}.
Definition ten_to_21 : double :=
  {| float_of := nearest_double 1 21; float_valid := eq_refl |}.
Definition one_tenth : double :=
  {| float_of := nearest_double 1 (-1); float_valid := eq_refl |}.
Definition ten_to_minus_7 : double :=
  {| float_of := nearest_double 1 (-7); float_valid := eq_refl |}.
Definition least_positive : double :=
  {| float_of := nearest_double 5 (-324); float_valid := eq_refl |}.
Definition two_to_69 : double :=
  {| float_of := integer_literal (2 ^ 69); float_valid := eq_refl |}.
Definition greatest_finite : double :=
  {| float_of := S754_finite false (2 ^ 53 - 1) 971; float_valid := eq_refl |}.
Definition minus_one_and_a_half : double :=
  {| float_of := S754_finite true (3 * 2 ^ 51) (-52); float_valid := eq_refl |}.
Definition minus_zero : double :=
  {| float_of := S754_zero true; float_valid := eq_refl |}.
Definition plus_infinity : double :=
  {| float_of := S754_infinity false; float_valid := eq_refl |}.
Definition minus_infinity : double :=
  {| float_of := S754_infinity true; float_valid := eq_refl |}.
Definition not_a_number : double :=
  {| float_of := S754_nan; float_valid := eq_refl |}.

(** The word test between two double quotes, the input of the unit test
    on strings with quotes. *)
Definition quoted_test : jsstring := DQUOTE :: lit "test" ++ [DQUOTE].

(** * Properties *)

(** ** The replacement *)

(** Replacing a code unit by itself changes nothing. *)
Lemma replace_global_same (c : codeunit) (s : jsstring) :
  replace_global c [c] s = s.
Proof.
  induction s as [|u s IH]; simpl; [reflexivity|].
  destruct (N.eqb_spec u c) as [->|_]; simpl; now rewrite IH.
Qed.

(** A string without the pattern is copied, whatever the replacement. *)
Lemma replace_global_absent (c : codeunit) (r s : jsstring) :
  ~ In c s -> replace_global c r s = s.
Proof.
  induction s as [|u s IH]; simpl; intros Hnot; [reflexivity|].
  destruct (N.eqb_spec u c) as [->|_].
  - exfalso; apply Hnot; now left.
  - f_equal; apply IH; intros Hin; apply Hnot; now right.
Qed.

(** Each match trades one code unit for the replacement. *)
Lemma length_replace_global (c : codeunit) (r s : jsstring) :
  List.length (replace_global c r s) + count_occ N.eq_dec s c =
  List.length s + count_occ N.eq_dec s c * List.length r.
Proof.
  induction s as [|u s IH]; simpl; [reflexivity|].
  destruct (N.eqb_spec u c) as [->|Hne].
  - destruct (N.eq_dec c c) as [_|Hcc]; [|now elim Hcc].
    rewrite length_app; simpl; lia.
  - destruct (N.eq_dec u c) as [Heq|_]; [now elim Hne|].
    simpl; lia.
Qed.

(** The escaping the specification describes adds one code unit per quote. *)
Lemma length_escaped_by_spec (s : jsstring) :
  List.length (escaped_by_spec s) = List.length s + count_quotes s.
Proof.
  unfold escaped_by_spec, count_quotes.
  pose proof (length_replace_global DQUOTE [BACKSLASH; DQUOTE] s) as H.
  simpl in H; lia.
Qed.

(** The escaping the specification describes is not idempotent. *)
Lemma escaped_by_spec_twice :
  escaped_by_spec (escaped_by_spec [DQUOTE]) <> escaped_by_spec [DQUOTE].
Proof. discriminate. Qed.

(** ** The three branches *)

Section Branches.

Context {R : Runtime}.

Lemma typeof_number (v : jsvalue) :
  (typeof v === lit "number") = true <-> exists n, v = JSNumber n.
Proof.
  split.
  - destruct v; simpl; try discriminate; [now eexists|].
    destruct (IsCallable o); discriminate.
  - intros [n ->]; reflexivity.
Qed.

Lemma typeof_string (v : jsvalue) :
  (typeof v === lit "string") = true <-> exists s, v = JSString s.
Proof.
  split.
  - destruct v; simpl; try discriminate; [now eexists|].
    destruct (IsCallable o); discriminate.
  - intros [s ->]; reflexivity.
Qed.

(** A number goes through the template literal and nothing else. *)
Lemma run_number (n : number) (h : heap) :
  escapeSearchQuery (JSNumber n) h =
  (Normal (JSString (NumberToString n)), h).
Proof.
  unfold escapeSearchQuery, template, bind, ret; simpl.
  now rewrite app_nil_r.
Qed.

(** A string goes through [replace] with the quote as the replacement. *)
Lemma run_string (s : jsstring) (h : heap) :
  escapeSearchQuery (JSString s) h =
  (Normal (JSString (replace_global DQUOTE [DQUOTE] s)), h).
Proof. reflexivity. Qed.

(** Everything else gives the empty string without touching the value. *)
Lemma run_other (v : jsvalue) (h : heap) :
  (typeof v === lit "number") = false ->
  (typeof v === lit "string") = false ->
  escapeSearchQuery v h = (Normal (JSString []), h).
Proof.
  intros Hn Hs; unfold escapeSearchQuery; now rewrite Hn, Hs.
Qed.

(** The result and the heap after the call, in one equation. *)
Lemma run_escapeSearchQuery (v : jsvalue) (h : heap) :
  escapeSearchQuery v h =
  (Normal (JSString
     match v with
     | JSNumber n => NumberToString n
     | JSString s => replace_global DQUOTE [DQUOTE] s
     | _ => []
     end), h).
Proof.
  destruct v; try reflexivity.
  - apply run_number.
  - apply run_other; simpl; now destruct (IsCallable o).
Qed.

End Branches.

(** ** The operations outside their guards

    On the small runtime: what the template literal and the method call
    do on values the function never hands them. *)

Example template_symbol_throws :
  template (R := small_runtime) (JSSymbol (lit "id")) 0 =
  (Throw TypeError, 0).
Proof. reflexivity. Qed.

Example template_object_runs_user_code :
  template (R := small_runtime) (JSObject tt) 0 = (Throw (Thrown 0), 1).
Proof. reflexivity. Qed.

Example call_replace_null_throws :
  call_replace (R := small_runtime) JSNull DQUOTE (lit quote_char) 0 =
  (Throw TypeError, 0).
Proof. reflexivity. Qed.

Example call_replace_object_runs_user_code :
  call_replace (R := small_runtime) (JSObject tt) DQUOTE (lit quote_char) 0 =
  (Throw (Thrown 1), 1).
Proof. reflexivity. Qed.


(** ** Numbers *)

(** [Number::toString] on some values: plain digits, a fraction, exponent
    notation at both ends, the sign, and the values that are not finite. *)

Example Number_toString_1000 :
  Number_toString one_thousand = lit "1000".
Proof. vm_compute; reflexivity. Qed.

Example Number_toString_one_tenth :
  Number_toString one_tenth = lit "0.1".
Proof. vm_compute; reflexivity. Qed.

Example Number_toString_minus_one_and_a_half :
  Number_toString minus_one_and_a_half = lit "-1.5".
Proof. vm_compute; reflexivity. Qed.

Example Number_toString_two_to_69 :
  Number_toString two_to_69 = lit "590295810358705700000".
Proof. vm_compute; reflexivity. Qed.

Example Number_toString_ten_to_21 :
  Number_toString ten_to_21 = lit "1e+21".
Proof. vm_compute; reflexivity. Qed.

Example Number_toString_ten_to_minus_7 :
  Number_toString ten_to_minus_7 = lit "1e-7".
Proof. vm_compute; reflexivity. Qed.

Example Number_toString_least_positive :
  Number_toString least_positive = lit "5e-324".
Proof. vm_compute; reflexivity. Qed.

Example Number_toString_greatest_finite :
  Number_toString greatest_finite = lit "1.7976931348623157e+308".
Proof. vm_compute; reflexivity. Qed.

Example Number_toString_minus_zero :
  Number_toString minus_zero = lit "0".
Proof. reflexivity. Qed.

Example Number_toString_infinities :
  Number_toString plus_infinity = lit "Infinity" /\
  Number_toString minus_infinity = lit "-Infinity".
Proof. split; reflexivity. Qed.

Example Number_toString_not_a_number :
  Number_toString not_a_number = lit "NaN".
Proof. reflexivity. Qed.

(** 2^53 + 1 is not a Number value: the literal denotes 2^53. *)
Example two_to_53_plus_1 :
  binary64 (S754_finite false (2 ^ 53 + 1) 0) = false /\
  integer_literal (2 ^ 53 + 1) = integer_literal (2 ^ 53).
Proof. split; vm_compute; reflexivity. Qed.

Section NumberBranch.

Variable O : Objects.

(** C6: on every Number value, an integer or not, finite or not, the
    function returns exactly the string of that number in radix 10, as
    [Number::toString] defines it, and leaves the heap as it was; on 1000
    it returns the four digits 1000. *)
Theorem escapeSearchQuery_number_canonical (x : double) (h : store O) :
  escapeSearchQuery (R := ecma_runtime O) (JSNumber x) h =
    (Normal (JSString (Number_toString x)), h) /\
  escapeSearchQuery (R := ecma_runtime O) (JSNumber one_thousand) h =
    (Normal (JSString (lit "1000")), h).
Proof.
  split.
  - exact (run_number (R := ecma_runtime O) x h).
  - pose proof (run_number (R := ecma_runtime O) one_thousand h) as H.
    cbn [NumberToString ecma_runtime] in H.
    rewrite Number_toString_1000 in H.
    exact H.
Qed.

End NumberBranch.

(** ** Strings *)

Section StringBranch.

Context {R : Runtime}.

(** C4: on every string, with or without double quotes, the function
    returns the string itself, code unit for code unit: the global
    replacement puts a double quote where it finds one and inserts no
    backslash.  The heap is left as it was. *)
Theorem escapeSearchQuery_string_identity (s : jsstring) (h : heap) :
  escapeSearchQuery (JSString s) h = (Normal (JSString s), h).
Proof.
  rewrite run_string.
  now rewrite replace_global_same.
Qed.

(** C5: a string that holds no double quote is returned unchanged. *)
Theorem escapeSearchQuery_without_quotes (s : jsstring) (h : heap) :
  ~ In DQUOTE s ->
  escapeSearchQuery (JSString s) h = (Normal (JSString s), h).
Proof.
  intros Hnot.
  rewrite run_string.
  now rewrite replace_global_absent by exact Hnot.
Qed.

(** C1: on the word test between two double quotes the function returns
    its input, which holds double quotes and is not the escaped string
    the specification describes (no backslash is inserted). *)
Theorem escapeSearchQuery_quoted_test_unescaped (h : heap) :
  In DQUOTE quoted_test /\
  escapeSearchQuery (JSString quoted_test) h =
    (Normal (JSString quoted_test), h) /\
  escaped_by_spec quoted_test =
    BACKSLASH :: DQUOTE :: lit "test" ++ [BACKSLASH; DQUOTE] /\
  escapeSearchQuery (JSString quoted_test) h <>
    (Normal (JSString (escaped_by_spec quoted_test)), h).
Proof.
  split; [now left|].
  split; [reflexivity|].
  split; [reflexivity|].
  rewrite run_string; intros Heq.
  injection Heq as Heq; discriminate Heq.
Qed.

(** C2: on the word test between two double quotes, which holds two
    double quotes and six code units, the result has six code units, not
    eight: no code unit is added per quote. *)
Theorem escapeSearchQuery_quoted_test_length (h : heap) :
  exists out : jsstring,
    escapeSearchQuery (JSString quoted_test) h = (Normal (JSString out), h) /\
    count_quotes quoted_test = 2 /\
    List.length quoted_test = 6 /\
    List.length out = 6 /\
    List.length out <> List.length quoted_test + count_quotes quoted_test.
Proof.
  exists quoted_test.
  repeat (split; [reflexivity|]).
  vm_compute; discriminate.
Qed.

(** C3: on strings the function is idempotent: running it on its own
    result gives that result again, for every string, with or without
    double quotes. *)
Theorem escapeSearchQuery_string_idempotent (s : jsstring) (h : heap) :
  bind (escapeSearchQuery (JSString s)) escapeSearchQuery h =
  escapeSearchQuery (JSString s) h.
Proof.
  unfold bind.
  rewrite run_string, replace_global_same.
  rewrite run_string, replace_global_same.
  reflexivity.
Qed.

End StringBranch.

(** ** All values *)

Section AllValues.

Context {R : Runtime}.

(** C7: a value that is neither a number nor a string (null, undefined,
    a boolean, a symbol, an object, an array, a function) gives the empty
    string, and no error. *)
Theorem escapeSearchQuery_other_empty (value : jsvalue) (h : heap) :
  (forall n, value <> JSNumber n) ->
  (forall s, value <> JSString s) ->
  escapeSearchQuery value h = (Normal (JSString (lit EmptyString)), h).
Proof.
  intros Hn Hs.
  apply run_other.
  - destruct (typeof value === lit "number") eqn:E; [|reflexivity].
    apply typeof_number in E as [n ->]; now elim (Hn n).
  - destruct (typeof value === lit "string") eqn:E; [|reflexivity].
    apply typeof_string in E as [s ->]; now elim (Hs s).
Qed.

(** C8: the function is total and never throws: on every value and in
    every heap it completes normally. *)
Theorem escapeSearchQuery_total (value : jsvalue) (h : heap) :
  (exists (r : jsvalue) (h' : heap),
      escapeSearchQuery value h = (Normal r, h')) /\
  (forall (e : exn) (h' : heap),
      escapeSearchQuery value h <> (Throw e, h')).
Proof.
  rewrite run_escapeSearchQuery; split.
  - now eexists; eexists.
  - discriminate.
Qed.

(** C9: on every value the result is a string. *)
Theorem escapeSearchQuery_returns_string (value : jsvalue) (h : heap) :
  exists r : jsvalue,
    fst (escapeSearchQuery value h) = Normal r /\
    typeof r = lit "string" /\
    exists s : jsstring, r = JSString s.
Proof.
  rewrite run_escapeSearchQuery; simpl.
  eexists; split; [reflexivity|].
  split; [reflexivity|now eexists].
Qed.

(** C10: the function is pure: the result does not depend on the heap,
    so two calls on the same value return the same result, and the heap
    after the call is the heap before it. *)
Theorem escapeSearchQuery_pure (value : jsvalue) (h1 h2 : heap) :
  fst (escapeSearchQuery value h1) = fst (escapeSearchQuery value h2) /\
  snd (escapeSearchQuery value h1) = h1 /\
  fst (escapeSearchQuery value (snd (escapeSearchQuery value h1))) =
    fst (escapeSearchQuery value h1).
Proof.
  rewrite !run_escapeSearchQuery; simpl.
  repeat split.
Qed.

End AllValues.

(** ** Instances on the small runtime *)

Lemma escapeSearchQuery_without_quotes_witness :
  ~ In DQUOTE (lit "test") /\
  escapeSearchQuery (R := small_runtime) (JSString (lit "test")) 0 =
  (Normal (JSString (lit "test")), 0).
Proof.
  assert (Hnot : ~ In DQUOTE (lit "test")).
  { simpl; unfold DQUOTE; intros [H|[H|[H|[H|[]]]]]; discriminate H. }
  split; [exact Hnot|].
  exact (escapeSearchQuery_without_quotes (R := small_runtime) (lit "test") 0 Hnot).
Defined.

Lemma escapeSearchQuery_other_empty_witness :
  (forall n : double, @JSNull double unit <> JSNumber n) /\
  (forall s : jsstring, @JSNull double unit <> JSString s) /\
  escapeSearchQuery (R := small_runtime) JSNull 0 =
  (Normal (JSString (lit EmptyString)), 0).
Proof.
  assert (Hn : forall n : double, @JSNull double unit <> JSNumber n)
    by (intros n; discriminate).
  assert (Hs : forall s : jsstring, @JSNull double unit <> JSString s)
    by (intros s; discriminate).
  split; [exact Hn|].
  split; [exact Hs|].
  exact (escapeSearchQuery_other_empty (R := small_runtime) JSNull 0 Hn Hs).
Defined.

(** * Further properties of the function *)

(** The escaping the specification describes leaves a string as it is
    exactly when the string holds no double quote. *)
Lemma escaped_by_spec_fixed (s : jsstring) :
  escaped_by_spec s = s <-> ~ In DQUOTE s.
Proof.
  split.
  - intros Heq.
    pose proof (length_escaped_by_spec s) as Hlen.
    rewrite Heq in Hlen.
    apply (count_occ_not_In N.eq_dec).
    unfold count_quotes in Hlen; lia.
  - apply replace_global_absent.
Qed.

Section Further.

Context {R : Runtime}.

(** X1: the function is idempotent on every value, not only on strings:
    run on its own result it returns that result again, and the heap is the
    heap the first call left. *)
Theorem escapeSearchQuery_twice (value : jsvalue) (h : heap) :
  bind (escapeSearchQuery value) escapeSearchQuery h =
  escapeSearchQuery value h.
Proof.
  unfold bind.
  rewrite (run_escapeSearchQuery value h).
  rewrite run_string, replace_global_same.
  reflexivity.
Qed.

(** X2: for a value that is not a number, the result is the empty string
    exactly when the value is the empty string or is not a string at all;
    a string with at least one code unit never gives the empty string. *)
Theorem escapeSearchQuery_empty_iff (value : jsvalue) (h : heap) :
  (forall n, value <> JSNumber n) ->
  escapeSearchQuery value h = (Normal (JSString []), h) <->
  (value = JSString [] \/ forall s, value <> JSString s).
Proof.
  intros Hn.
  rewrite run_escapeSearchQuery.
  destruct value as [| |b|n|s|d|z|o];
    try (split; [intros _; right; intros s'; discriminate|reflexivity]).
  - now elim (Hn n).
  - rewrite replace_global_same; split.
    + intros Heq; left; injection Heq as ->; reflexivity.
    + intros [Heq|Hs]; [injection Heq as ->; reflexivity|now elim (Hs s)].
Qed.

(** X3: on a string, the result is the escaped string of the specification
    (a backslash before every double quote) exactly when the string holds
    no double quote; on every string that holds one, the two differ. *)
Theorem escapeSearchQuery_escaped_iff (s : jsstring) (h : heap) :
  escapeSearchQuery (JSString s) h =
    (Normal (JSString (escaped_by_spec s)), h) <->
  ~ In DQUOTE s.
Proof.
  rewrite run_string, replace_global_same.
  rewrite <- escaped_by_spec_fixed.
  split.
  - intros Heq; injection Heq as Heq; now symmetry.
  - intros ->; reflexivity.
Qed.

End Further.

Lemma escapeSearchQuery_empty_iff_witness :
  (forall n : double, @JSUndefined double unit <> JSNumber n) /\
  (escapeSearchQuery (R := small_runtime) JSUndefined 0 =
     (Normal (JSString []), 0) <->
   (@JSUndefined double unit = JSString [] \/
    forall s : jsstring, @JSUndefined double unit <> JSString s)).
Proof.
  assert (Hn : forall n : double, @JSUndefined double unit <> JSNumber n)
    by (intros n; discriminate).
  split; [exact Hn|].
  exact (escapeSearchQuery_empty_iff (R := small_runtime) JSUndefined 0 Hn).
Defined.

(** * The number branch and the double quote *)

Lemma quote_free_app (a b : jsstring) :
  quote_free a -> quote_free b -> quote_free (a ++ b).
Proof. intros Ha Hb; apply Forall_app; now split. Qed.

Lemma quote_free_split (n : nat) (s : jsstring) :
  quote_free s -> quote_free (firstn n s) /\ quote_free (skipn n s).
Proof. intros Hs; apply Forall_app; now rewrite firstn_skipn. Qed.

Lemma quote_free_zeros (n : Z) : quote_free (zeros n).
Proof.
  unfold zeros; induction (Z.to_nat n); simpl; constructor;
    [discriminate|assumption].
Qed.

Lemma quote_free_uint (d : Decimal.uint) :
  quote_free (lit (NilEmpty.string_of_uint d)).
Proof.
  induction d; simpl; try (constructor; [discriminate|assumption]).
  constructor.
Qed.

Lemma quote_free_decimal_of_Z (z : Z) : quote_free (decimal_of_Z z).
Proof.
  unfold decimal_of_Z, NilZero.string_of_int, NilZero.string_of_uint.
  destruct (Z.to_int z) as [d|d]; destruct d;
    repeat (constructor; try discriminate);
    apply (quote_free_uint d).
Qed.

Lemma quote_free_format_decimal (n k s : Z) :
  quote_free (format_decimal n k s).
Proof.
  pose proof (quote_free_decimal_of_Z s) as Hd.
  pose proof (proj1 (quote_free_split (Z.to_nat n) _ Hd)) as Hf.
  pose proof (proj2 (quote_free_split (Z.to_nat n) _ Hd)) as Hs.
  pose proof (proj1 (quote_free_split 1 _ Hd)) as Hf1.
  pose proof (proj2 (quote_free_split 1 _ Hd)) as Hs1.
  assert (Hdot : quote_free (lit ".")) by (repeat constructor; discriminate).
  assert (Hzd : quote_free (lit "0.")) by (repeat constructor; discriminate).
  assert (He : quote_free (lit "e")) by (repeat constructor; discriminate).
  assert (Hsign : quote_free
            (if (n - 1 <? 0)%Z then lit "-" else lit "+"))
    by (destruct (n - 1 <? 0)%Z; repeat constructor; discriminate).
  pose proof (quote_free_decimal_of_Z (Z.abs (n - 1))) as Hexp.
  pose proof (quote_free_zeros (n - k)) as Hz1.
  pose proof (quote_free_zeros (- n)) as Hz2.
  unfold format_decimal.
  destruct ((-5 <=? n) && (n <=? 21))%Z;
    [destruct (k <=? n)%Z; [|destruct (0 <? n)%Z]|destruct (k =? 1)%Z];
    repeat (apply quote_free_app); assumption.
Qed.

Lemma quote_free_positive_toString (mx : positive) (ex : Z) :
  quote_free (positive_toString mx ex).
Proof.
  unfold positive_toString.
  destruct (shortest_digits 16 1 _ mx ex) as [[n k] s].
  apply quote_free_format_decimal.
Qed.

Lemma quote_free_Number_toString (x : double) :
  quote_free (Number_toString x).
Proof.
  assert (Hminus : quote_free (lit "-")) by (repeat constructor; discriminate).
  unfold Number_toString.
  destruct (float_of x) as [z|[|]| |[|] m e].
  - repeat constructor; discriminate.
  - repeat constructor; discriminate.
  - repeat constructor; discriminate.
  - repeat constructor; discriminate.
  - apply quote_free_app; [exact Hminus|apply quote_free_positive_toString].
  - apply quote_free_positive_toString.
Qed.

Section NumberQuotes.

Variable O : Objects.

(** X4: the string returned for a Number value never holds a double
    quote, whatever the number: it is equal to its own escaped form, so
    the number branch needs no escaping. *)
Theorem escapeSearchQuery_number_quote_free (x : double) (h : store O) :
  exists out : jsstring,
    escapeSearchQuery (R := ecma_runtime O) (JSNumber x) h =
      (Normal (JSString out), h) /\
    ~ In DQUOTE out /\
    escaped_by_spec out = out.
Proof.
  exists (Number_toString x).
  assert (Hfree : ~ In DQUOTE (Number_toString x)).
  { intros Hin.
    exact (proj1 (Forall_forall _ _) (quote_free_Number_toString x)
                 DQUOTE Hin eq_refl). }
  split; [exact (run_number (R := ecma_runtime O) x h)|].
  split; [exact Hfree|].
  now apply escaped_by_spec_fixed.
Qed.

End NumberQuotes.
